(** * ec2_manager.py: listing, starting and stopping EC2 instances

    A shallow embedding of [src/ec2_manager.py].  The script talks to AWS
    through a boto3 client and reports on standard output, so the embedding
    threads a world (the calls received by the client and the texts handed
    to [print]) through a small state-and-exception monad. *)

From Stdlib Require Import String Ascii List Bool ZArith Lia.
Import ListNotations.
Open Scope string_scope.
Set Warnings "-register-all".

(** ** Python values *)

(** The values found in a boto3 response.  A [dict] keeps its insertion
    order, so it is an association list; the keys of a response are
    strings. *)
Inductive pyval : Type :=
| VNone
| VBool (b : bool)
| VInt (n : Z)
| VStr (s : string)
| VDatetime (t : Z)
| VList (l : list pyval)
| VDict (d : list (string * pyval)).

(** Python's truth value, as tested by [if x := ...]. *)
Definition truthy (v : pyval) : bool :=
  match v with
  | VNone => false
  | VBool b => b
  | VInt n => negb (Z.eqb n 0)
  | VStr s => negb (String.eqb s "")
  | VDatetime _ => true
  | VList l => match l with [] => false | _ :: _ => true end
  | VDict d => match d with [] => false | _ :: _ => true end
  end.

(** The entry stored under a key, if any. *)
Fixpoint lookup (k : string) (d : list (string * pyval)) : option pyval :=
  match d with
  | [] => None
  | (k', v) :: d' => if String.eqb k k' then Some v else lookup k d'
  end.

(** [dict.get(k)]: the entry, or [None] when the key is absent. *)
Definition dict_get (d : list (string * pyval)) (k : string) : pyval :=
  match lookup k d with
  | Some v => v
  | None => VNone
  end.

(** [needle in hay] on strings. *)
Fixpoint contains (needle hay : string) : bool :=
  String.prefix needle hay ||
  match hay with
  | EmptyString => false
  | String _ rest => contains needle rest
  end.

(** The line feed. *)
Definition nl : string := String (ascii_of_nat 10) EmptyString.

(** [str(x)], which f-strings and [print] apply to their arguments. *)
Class PyStr (A : Type) := py_str : A -> string.

#[export] Instance str_PyStr : PyStr string := fun s => s.

(** An optional string is a string or [None]. *)
#[export] Instance option_PyStr : PyStr (option string) :=
  fun o => match o with Some s => s | None => "None" end.

(** ** Exceptions *)

(** A botocore [ClientError]: the provider's error code and message, and the
    operation that was called. *)
Record client_error : Type := mkClientError {
  error_code : string;
  error_message : string;
  operation_name : string
}.

(** [str(e)] of a [ClientError] is botocore's message template (without
    retry information). *)
#[export] Instance client_error_PyStr : PyStr client_error :=
  fun e =>
    "An error occurred (" ++ error_code e ++ ") when calling the "
      ++ operation_name e ++ " operation: " ++ error_message e.

Inductive exn : Type :=
| ClientError (e : client_error)
| TypeError
| AttributeError
| OtherException (name : string).

(** ** The world: the EC2 client and standard output *)

Inductive api_call : Type :=
| describe_instances
| start_instances (InstanceIds : list (option string)) (DryRun : bool)
| stop_instances (InstanceIds : list (option string)) (DryRun : bool).

(** A call returns a response or raises. *)
Definition outcome : Type := (exn + pyval)%type.

(** The client answers a call given the calls it has received before. *)
Definition client : Type := list api_call -> api_call -> outcome.

(** [calls] are the calls the client has received and [stdout] the
    arguments of the [print] calls, both oldest first. *)
Record world : Type := mkWorld {
  calls : list api_call;
  stdout : list string
}.

(** A computation changes the world and returns or raises. *)
Definition M (A : Type) : Type := world -> world * (exn + A).

Definition ret {A} (a : A) : M A := fun w => (w, inr a).

Definition bind {A B} (m : M A) (f : A -> M B) : M B :=
  fun w =>
    match m w with
    | (w', inr a) => f a w'
    | (w', inl e) => (w', inl e)
    end.

Declare Scope py_scope.
Delimit Scope py_scope with py.
Notation "x <- c1 ;; c2" := (bind c1 (fun x => c2))
  (at level 100, c1 at next level, right associativity) : py_scope.
Notation "c1 ;; c2" := (bind c1 (fun _ => c2))
  (at level 100, right associativity) : py_scope.
Open Scope py_scope.

(** [print(s)]. *)
Definition print (s : string) : M unit :=
  fun w => (mkWorld (calls w) (stdout w ++ [s]), inr tt).

(** A call on the client [ec2]. *)
Definition invoke (ec2 : client) (c : api_call) : M pyval :=
  fun w => (mkWorld (calls w ++ [c]) (stdout w), ec2 (calls w) c).

(** [try: body / except ClientError as e: handler(e) / else: orelse(r)],
    where [r] is what the body returned.  Other exceptions of the body go
    through, and so does what the handler or the else branch raises. *)
Definition try_except_ClientError {A B} (body : M A)
    (handler : client_error -> M B) (orelse : A -> M B) : M B :=
  fun w =>
    match body w with
    | (w', inr a) => orelse a w'
    | (w', inl (ClientError e)) => handler e w'
    | (w', inl e) => (w', inl e)
    end.

(** Lifting a pure result that may be an exception. *)
Definition lift {A} (r : exn + A) : M A := fun w => (w, r).

(** Results of pure code that may raise. *)
Definition ebind {A B} (r : exn + A) (f : A -> exn + B) : exn + B :=
  match r with
  | inr a => f a
  | inl e => inl e
  end.

Notation "x <~ c1 ;; c2" := (ebind c1 (fun x => c2))
  (at level 100, c1 at next level, right associativity) : py_scope.

(** [v.get(k)]: only a [dict] has the method. *)
Definition py_get (v : pyval) (k : string) : exn + pyval :=
  match v with
  | VDict d => inr (dict_get d k)
  | _ => inl AttributeError
  end.

Fixpoint chars (s : string) : list pyval :=
  match s with
  | EmptyString => []
  | String c rest => VStr (String c EmptyString) :: chars rest
  end.

(** The elements a [for] loop goes through: those of a list, the keys of a
    dict, the characters of a string; other values are not iterable. *)
Definition py_iter (v : pyval) : exn + list pyval :=
  match v with
  | VList l => inr l
  | VDict d => inr (map (fun kv => VStr (fst kv)) d)
  | VStr s => inr (chars s)
  | _ => inl TypeError
  end.

(** A [for] loop whose body updates [s] and may raise. *)
Fixpoint for_each {A S} (xs : list A) (body : A -> S -> exn + S) (s : S)
    : exn + S :=
  match xs with
  | [] => inr s
  | x :: xs' => s' <~ body x s;; for_each xs' body s'
  end.

(** ** The data classes *)

(** [instance_id] comes from the parsed arguments, where an option that was
    not given is [None]. *)
Record Settings : Type := mkSettings {
  instance_id : option string;
  test : bool;
  verbose : bool;
  quiet : bool
}.

(** The fields hold whatever the response held: the annotations of the
    dataclass are not enforced.  Its [instance_id] is [ec2_instance_id]
    here, to keep it apart from the one of [Settings]. *)
Record EC2Instance : Type := mkEC2Instance {
  image_id : pyval;
  ec2_instance_id : pyval;
  instance_type : pyval;
  launch_time : pyval;
  availability_zone : pyval;
  private_dns_name : pyval;
  private_ip_address : pyval;
  public_ip_address : pyval;
  public_dns_name : pyval;
  state : pyval;
  subnet_id : pyval;
  vpc_id : pyval;
  tags : pyval
}.

Record EC2Manager : Type := mkEC2Manager {
  settings : Settings;
  ec2 : client
}.

(** ** [EC2Manager.instance_from_response] *)

(** The body of the inner loop: the record of one instance entry. *)
Definition instance_record (instance : pyval) : exn + EC2Instance :=
  dns <~ py_get instance "PublicDnsName";;
  let public_dns_name := if truthy dns then dns else VStr "NONE" in
  ip <~ py_get instance "PublicIpAddress";;
  let public_ip_address := if truthy ip then ip else VStr "NONE" in
  image_id <~ py_get instance "ImageId";;
  instance_id <~ py_get instance "InstanceId";;
  instance_type <~ py_get instance "InstanceType";;
  launch_time <~ py_get instance "LaunchTime";;
  placement <~ py_get instance "Placement";;
  availability_zone <~ py_get placement "AvailabilityZone";;
  private_dns_name <~ py_get instance "PrivateDnsName";;
  private_ip_address <~ py_get instance "PrivateIpAddress";;
  state_ <~ py_get instance "State";;
  state_name <~ py_get state_ "Name";;
  subnet_id <~ py_get instance "SubnetId";;
  vpc_id <~ py_get instance "VpcId";;
  tags <~ py_get instance "Tags";;
  inr (mkEC2Instance image_id instance_id instance_type launch_time
         availability_zone private_dns_name private_ip_address
         public_ip_address public_dns_name state_name subnet_id vpc_id tags).

Definition instance_from_response (response : pyval)
    : exn + list EC2Instance :=
  let ec2_instances := [] in
  reservations <~ py_get response "Reservations";;
  reservations <~ py_iter reservations;;
  for_each reservations
    (fun reservation ec2_instances =>
       instances <~ py_get reservation "Instances";;
       instances <~ py_iter instances;;
       for_each instances
         (fun instance ec2_instances =>
            ec2_instance <~ instance_record instance;;
            inr (ec2_instances ++ [ec2_instance])%list)
         ec2_instances)
    ec2_instances.

(** ** Output helpers and [EC2Manager.print_instance_summary] *)

Definition verbose_output (self : EC2Manager) (message : string) : M unit :=
  if verbose (settings self) then print message else ret tt.

Definition not_quiet (self : EC2Manager) (message : string) : M unit :=
  if quiet (settings self) then ret tt else print message.

Definition divider : string := "~~~~~~~~~~~~~~~~~~~~~~~~~~~~~~~~~~~~~~".

Section Summary.
(** [str] of a response value (a date, a list of tags, ...) is the
    interpreter's; the summary is the same whatever it is. *)
Context {pyval_PyStr : PyStr pyval}.

Definition print_instance_summary (self : EC2Manager)
    (instance : EC2Instance) : M unit :=
  print (py_str (ec2_instance_id instance));;
  not_quiet self divider;;
  verbose_output self ("  AMI:         " ++ py_str (image_id instance));;
  not_quiet self ("  Type:        " ++ py_str (instance_type instance));;
  verbose_output self ("  Launched:    " ++ py_str (launch_time instance));;
  verbose_output self
    ("  AZ:          " ++ py_str (availability_zone instance));;
  verbose_output self
    ("  Private DNS: " ++ py_str (private_dns_name instance));;
  verbose_output self
    ("  Public DNS:  " ++ py_str (public_dns_name instance));;
  not_quiet self
    ("  Private IP:  " ++ py_str (private_ip_address instance));;
  not_quiet self ("  Public IP:   " ++ py_str (public_ip_address instance));;
  verbose_output self ("  Subnet Id:   " ++ py_str (subnet_id instance));;
  verbose_output self ("  VPC Id:      " ++ py_str (vpc_id instance));;
  not_quiet self ("  State:       " ++ py_str (state instance));;
  verbose_output self ("  Tags:        " ++ py_str (tags instance));;
  print "".
End Summary.

(** ** [EC2Manager.start] and [EC2Manager.stop] *)

Definition start (self : EC2Manager) : M unit :=
  let id := instance_id (settings self) in
  (* Dry run to verify permissions *)
  try_except_ClientError
    (invoke (ec2 self) (start_instances [id] true))
    (fun e =>
       if negb (contains "DryRunOperation" (py_str e)) then
         if test (settings self) then
           print ("Test failed, can't start " ++ py_str id ++ "." ++ nl
                    ++ py_str e)
         else ret tt
       else
         if test (settings self) then
           print ("Test successful, able to start " ++ py_str id ++ ".")
         else ret tt)
    (fun _ => ret tt);;
  if test (settings self) then ret tt
  else
    try_except_ClientError
      (invoke (ec2 self) (start_instances [id] false))
      (fun e => print ("ERROR: " ++ py_str e))
      (fun _ =>
         print ("Command successful, " ++ py_str id ++ " is staring...")).

Definition stop (self : EC2Manager) : M unit :=
  let id := instance_id (settings self) in
  (* Dry run to verify permissions *)
  try_except_ClientError
    (invoke (ec2 self) (stop_instances [id] true))
    (fun e =>
       if negb (contains "DryRunOperation" (py_str e)) then
         if test (settings self) then
           print ("Test failed, can't stop " ++ py_str id ++ "." ++ nl
                    ++ py_str e)
         else ret tt
       else
         if test (settings self) then
           print ("Test successful, able to stop " ++ py_str id ++ ".")
         else ret tt)
    (fun _ => ret tt);;
  if test (settings self) then ret tt
  else
    try_except_ClientError
      (invoke (ec2 self) (stop_instances [id] false))
      (fun e => print ("ERROR: " ++ py_str e))
      (fun _ =>
         print ("Command successful, " ++ py_str id ++ " is stopping...")).

(** ** [EC2Manager.list_instances] and the script's entry point *)

Definition list_instances (self : EC2Manager) : M (list EC2Instance) :=
  boto_response <- invoke (ec2 self) describe_instances;;
  instances <- lift (instance_from_response boto_response);;
  ret instances.

(** A [for] loop whose body acts on the world. *)
Fixpoint for_ {A} (xs : list A) (body : A -> M unit) : M unit :=
  match xs with
  | [] => ret tt
  | x :: xs' => body x;; for_ xs' body
  end.

(** What docopt hands to the script once the usage pattern matched:
    [--list], [--start], [--stop], [--test], [--verbose], [--quiet]. *)
Record Args : Type := mkArgs {
  arg_list : bool;
  arg_start : option string;
  arg_stop : option string;
  arg_test : bool;
  arg_verbose : bool;
  arg_quiet : bool
}.

(** The truth value of an optional string. *)
Definition truthy_opt (o : option string) : bool :=
  match o with
  | Some s => negb (String.eqb s "")
  | None => false
  end.

Definition list_header : string :=
  "Instances found in your AWS account:" ++ nl.

Section Main.
Context {pyval_PyStr : PyStr pyval}.

(** The [__main__] block, run with the parsed arguments and the client
    that [boto3.client] gives. *)
Definition main (args : Args) (ec2 : client) : M unit :=
  let list_mode := arg_list args in
  if negb list_mode then
    if truthy_opt (arg_start args) then
      let app_settings :=
        mkSettings (arg_start args) (arg_test args) (arg_verbose args)
          (arg_quiet args) in
      let manager := mkEC2Manager app_settings ec2 in
      start manager
    else
      let app_settings :=
        mkSettings (arg_stop args) (arg_test args) (arg_verbose args)
          (arg_quiet args) in
      let manager := mkEC2Manager app_settings ec2 in
      stop manager
  else
    (* just list instances and quit *)
    let app_settings :=
      mkSettings (Some "") (arg_test args) (arg_verbose args)
        (arg_quiet args) in
    let manager := mkEC2Manager app_settings ec2 in
    not_quiet manager list_header;;
    all_instances <- list_instances manager;;
    for_ all_instances (fun i => print_instance_summary manager i).
End Main.

(** The initial world of a run. *)
Definition w0 : world := mkWorld [] [].

(** ** Notions used to state the properties *)

(** A call that changes the state of an instance: a start or a stop that is
    not a dry run. *)
Definition state_changing (c : api_call) : bool :=
  match c with
  | start_instances _ DryRun => negb DryRun
  | stop_instances _ DryRun => negb DryRun
  | describe_instances => false
  end.

(** The calls issued and the texts printed between two worlds. *)
Definition issued (w w' : world) : list api_call :=
  skipn (length (calls w)) (calls w').

Definition printed (w w' : world) : list string :=
  skipn (length (stdout w)) (stdout w').

(** What the console shows: [print] ends each text with a line feed. *)
Definition console (out : list string) : string :=
  String.concat "" (map (fun s => s ++ nl) out).

(** A call that returned, or failed with a provider error. *)
Definition provider_outcome (o : outcome) : bool :=
  match o with
  | inr _ => true
  | inl (ClientError _) => true
  | inl _ => false
  end.

(** The report on the dry run in test mode; [verb] is [start] or [stop]. *)
Definition test_report (verb : string) (id : option string) (o : outcome)
    : list string :=
  match o with
  | inl (ClientError e) =>
      if contains "DryRunOperation" (py_str e) then
        ["Test successful, able to " ++ verb ++ " " ++ py_str id ++ "."]
      else
        ["Test failed, can't " ++ verb ++ " " ++ py_str id ++ "." ++ nl
           ++ py_str e]
  | _ => []
  end.

(** The report on the real call; [doing] is the word of the confirmation. *)
Definition real_report (doing : string) (id : option string) (o : outcome)
    : list string :=
  match o with
  | inr _ => ["Command successful, " ++ py_str id ++ " is " ++ doing ++ "..."]
  | inl (ClientError e) => ["ERROR: " ++ py_str e]
  | inl _ => []
  end.

(** Responses shaped as [describe_instances] shapes them: reservations that
    list instance entries, each with its placement and its state. *)
Definition valid_instance (instance : pyval) : bool :=
  match instance with
  | VDict d =>
      match dict_get d "Placement", dict_get d "State" with
      | VDict _, VDict _ => true
      | _, _ => false
      end
  | _ => false
  end.

Definition valid_reservation (reservation : pyval) : bool :=
  match reservation with
  | VDict d =>
      match dict_get d "Instances" with
      | VList l => forallb valid_instance l
      | _ => false
      end
  | _ => false
  end.

Definition valid_response (response : pyval) : bool :=
  match response with
  | VDict d =>
      match dict_get d "Reservations" with
      | VList l => forallb valid_reservation l
      | _ => false
      end
  | _ => false
  end.

(** The instance entries of a reservation and of a response, in the order
    of the response. *)
Definition reservation_entries (reservation : pyval) : list pyval :=
  match reservation with
  | VDict d => match dict_get d "Instances" with VList l => l | _ => [] end
  | _ => []
  end.

Definition instance_entries (response : pyval) : list pyval :=
  match response with
  | VDict d =>
      match dict_get d "Reservations" with
      | VList l => flat_map reservation_entries l
      | _ => []
      end
  | _ => []
  end.

(** Each entry and the record made of it. *)
Definition maps_to (entry : pyval) (record : EC2Instance) : Prop :=
  instance_record entry = inr record.

(** The default of the two public fields. *)
Definition or_NONE (v : pyval) : pyval :=
  if truthy v then v else VStr "NONE".

(** The tiers of the summary. *)
Inductive tier : Type := Always | UnlessQuiet | IfVerbose.

Definition shown (s : Settings) (t : tier) : bool :=
  match t with
  | Always => true
  | UnlessQuiet => negb (quiet s)
  | IfVerbose => verbose s
  end.

Section SummaryLines.
Context {pyval_PyStr : PyStr pyval}.

(** The lines of a summary with the tier of each, the divider gated as
    the type, addresses and state are. *)
Definition summary_lines (instance : EC2Instance) : list (tier * string) :=
  [ (Always, py_str (ec2_instance_id instance));
    (UnlessQuiet, divider);
    (IfVerbose, "  AMI:         " ++ py_str (image_id instance));
    (UnlessQuiet, "  Type:        " ++ py_str (instance_type instance));
    (IfVerbose, "  Launched:    " ++ py_str (launch_time instance));
    (IfVerbose, "  AZ:          " ++ py_str (availability_zone instance));
    (IfVerbose, "  Private DNS: " ++ py_str (private_dns_name instance));
    (IfVerbose, "  Public DNS:  " ++ py_str (public_dns_name instance));
    (UnlessQuiet,
      "  Private IP:  " ++ py_str (private_ip_address instance));
    (UnlessQuiet, "  Public IP:   " ++ py_str (public_ip_address instance));
    (IfVerbose, "  Subnet Id:   " ++ py_str (subnet_id instance));
    (IfVerbose, "  VPC Id:      " ++ py_str (vpc_id instance));
    (UnlessQuiet, "  State:       " ++ py_str (state instance));
    (IfVerbose, "  Tags:        " ++ py_str (tags instance));
    (Always, "") ].

(** The texts of the lines whose tier the settings show. *)
Definition summary_text (s : Settings) (instance : EC2Instance)
    : list string :=
  map snd (filter (fun l => shown s (fst l)) (summary_lines instance)).
End SummaryLines.

(** ** Sample inputs *)

(** [str] on the values of the samples: [None], booleans and strings as
    Python shows them; the samples hold no other value where it is
    applied. *)
Definition sample_str : PyStr pyval :=
  fun v =>
    match v with
    | VNone => "None"
    | VBool true => "True"
    | VBool false => "False"
    | VStr s => s
    | _ => "..."
    end.

Definition dq : string := String (ascii_of_nat 34) EmptyString.

Definition operation_of (c : api_call) : string :=
  match c with
  | describe_instances => "DescribeInstances"
  | start_instances _ _ => "StartInstances"
  | stop_instances _ _ => "StopInstances"
  end.

Definition empty_response : pyval := VDict [("Reservations", VList [])].

(** A provider that lets the caller start and stop: a dry run fails with
    the code [DryRunOperation], other calls return. *)
Definition permissive_client : client :=
  fun _ c =>
    match c with
    | start_instances _ true | stop_instances _ true =>
        inl (ClientError
               (mkClientError "DryRunOperation"
                  "Request would have succeeded, but DryRun flag is set."
                  (operation_of c)))
    | describe_instances => inr empty_response
    | _ => inr (VDict [])
    end.

(** A provider that refuses the dry run but lets the real call return. *)
Definition silent_refusal_client : client :=
  fun _ c =>
    match c with
    | start_instances _ true | stop_instances _ true =>
        inl (ClientError
               (mkClientError "UnauthorizedOperation"
                  "You are not authorized to perform this operation."
                  (operation_of c)))
    | describe_instances => inr empty_response
    | _ => inr (VDict [])
    end.

(** The text of an [UnauthorizedOperation] error. *)
Definition refusal_text (operation : string) : string :=
  "An error occurred (UnauthorizedOperation) when calling the "
    ++ operation
    ++ " operation: You are not authorized to perform this operation.".

(** A provider that refuses every call. *)
Definition refusing_client : client :=
  fun _ c =>
    inl (ClientError
           (mkClientError "UnauthorizedOperation"
              "You are not authorized to perform this operation."
              (operation_of c))).

(** A provider that rejects the identifier it is given, quoting it. *)
Definition quoting_client : client :=
  fun _ c =>
    match c with
    | start_instances (Some id :: _) _ | stop_instances (Some id :: _) _ =>
        inl (ClientError
               (mkClientError "InvalidInstanceID.Malformed"
                  ("Invalid id: " ++ dq ++ id ++ dq)
                  (operation_of c)))
    | _ => inr (VDict [])
    end.

Definition sample_fields (id : string) (more : list (string * pyval))
    : list (string * pyval) :=
  ([ ("ImageId", VStr "ami-0abc");
     ("InstanceId", VStr id);
     ("InstanceType", VStr "t3.micro");
     ("Placement", VDict [("AvailabilityZone", VStr "us-east-1a")]);
     ("PrivateDnsName", VStr "ip-10-0-0-5.ec2.internal");
     ("PrivateIpAddress", VStr "10.0.0.5");
     ("State", VDict [("Code", VInt 80); ("Name", VStr "stopped")]);
     ("SubnetId", VStr "subnet-1");
     ("VpcId", VStr "vpc-1") ] ++ more)%list.

Definition sample_entry (id : string) (more : list (string * pyval))
    : pyval :=
  VDict (sample_fields id more).

(** An entry whose public DNS name is there and empty, as that of a
    stopped instance. *)
Definition stopped_fields : list (string * pyval) :=
  sample_fields "i-1"
    [("PublicDnsName", VStr ""); ("PublicIpAddress", VStr "203.0.113.9")].

(** An entry without its placement. *)
Definition unplaced_fields : list (string * pyval) :=
  [ ("ImageId", VStr "ami-0abc");
    ("InstanceId", VStr "i-1");
    ("State", VDict [("Code", VInt 16); ("Name", VStr "running")]) ].

Definition sample_response : pyval :=
  VDict
    [ ("Reservations",
       VList
         [ VDict [("Instances",
                   VList [sample_entry "i-1" []; sample_entry "i-2" []])];
           VDict [("Instances", VList [])];
           VDict [("Instances", VList [sample_entry "i-3" []])] ]) ].

Definition sample_record : EC2Instance :=
  mkEC2Instance (VStr "ami-0abc") (VStr "i-123") (VStr "t3.micro") VNone
    (VStr "us-east-1a") (VStr "ip-10-0-0-5.ec2.internal") (VStr "10.0.0.5")
    (VStr "NONE") (VStr "NONE") (VStr "stopped") (VStr "subnet-1")
    (VStr "vpc-1") VNone.

(** ** Notions for the rest of the script *)

(** An exception that [except ClientError] catches. *)
Definition client_error_exn (x : exn) : bool :=
  match x with
  | ClientError _ => true
  | _ => false
  end.

(** Responses whose reservations are dicts that list their instances,
    whatever the entries are. *)
Definition well_shaped_reservation (reservation : pyval) : bool :=
  match reservation with
  | VDict d =>
      match dict_get d "Instances" with
      | VList _ => true
      | _ => false
      end
  | _ => false
  end.

Definition well_shaped (response : pyval) : bool :=
  match response with
  | VDict d =>
      match dict_get d "Reservations" with
      | VList l => forallb well_shaped_reservation l
      | _ => false
      end
  | _ => false
  end.

(** What an entry holds under [InstanceId]. *)
Definition entry_id (entry : pyval) : pyval :=
  match entry with
  | VDict d => dict_get d "InstanceId"
  | _ => VNone
  end.

(** The first call of a run outside list mode, and the call that may
    follow it. *)
Definition dry_run_of (args : Args) : api_call :=
  if truthy_opt (arg_start args) then start_instances [arg_start args] true
  else stop_instances [arg_stop args] true.

Definition real_call_of (args : Args) : api_call :=
  if truthy_opt (arg_start args) then start_instances [arg_start args] false
  else stop_instances [arg_stop args] false.

(** The reservations of [sample_response], and one more. *)
Definition sample_reservations : list pyval :=
  [ VDict [("Instances",
            VList [sample_entry "i-1" []; sample_entry "i-2" []])];
    VDict [("Instances", VList [])];
    VDict [("Instances", VList [sample_entry "i-3" []])] ].

Definition more_reservations : list pyval :=
  [ VDict [("Instances", VList [sample_entry "i-4" []])] ].

(** A provider whose network is down. *)
Definition unreachable_client : client :=
  fun _ _ => inl (OtherException "EndpointConnectionError").

(** A provider whose network goes down after the first call. *)
Definition dropping_client : client :=
  fun h c =>
    match h with
    | [] => permissive_client h c
    | _ :: _ => inl (OtherException "EndpointConnectionError")
    end.

(** A provider that describes the sample instances. *)
Definition describing_client : client :=
  fun h c =>
    match c with
    | describe_instances => inr sample_response
    | _ => permissive_client h c
    end.

(** ** Auxiliary facts *)

Lemma skipn_length_app {A} (l l' : list A) : skipn (length l) (l ++ l') = l'.
Proof. induction l as [|a l IH]; simpl; auto. Qed.

Lemma issued_app (w : world) (l : list api_call) (out : list string) :
  issued w (mkWorld (calls w ++ l) out) = l.
Proof. unfold issued; simpl. apply skipn_length_app. Qed.

Lemma issued_app2 (w : world) (a b : api_call) (out : list string) :
  issued w (mkWorld ((calls w ++ [a]) ++ [b]) out) = [a; b].
Proof. rewrite <- app_assoc. apply issued_app. Qed.

Lemma printed_app (w : world) (cs : list api_call) (l : list string) :
  printed w (mkWorld cs (stdout w ++ l)) = l.
Proof. unfold printed; simpl. apply skipn_length_app. Qed.

Lemma printed_same (w : world) (cs : list api_call) :
  printed w (mkWorld cs (stdout w)) = [].
Proof. unfold printed; simpl. apply skipn_all. Qed.

Lemma prefix_append (s t : string) : String.prefix s (s ++ t) = true.
Proof.
  induction s as [|c s IH]; simpl.
  - destruct t; reflexivity.
  - destruct (ascii_dec c c) as [_|N]; [exact IH | now elim N].
Qed.

Lemma contains_prefix (needle hay : string) :
  String.prefix needle hay = true -> contains needle hay = true.
Proof. intros H. destruct hay; cbn [contains]; rewrite H; reflexivity. Qed.

Lemma contains_append (needle pre post : string) :
  contains needle (pre ++ needle ++ post) = true.
Proof.
  induction pre as [|c pre IH]; simpl.
  - apply contains_prefix, prefix_append.
  - rewrite IH. apply orb_true_r.
Qed.

(** An error whose code is [DryRunOperation] shows it in its text. *)
Lemma dry_run_code_in_text (e : client_error) :
  error_code e = "DryRunOperation" ->
  contains "DryRunOperation" (py_str e) = true.
Proof.
  intros H. unfold py_str, client_error_PyStr. rewrite H.
  apply (contains_append "DryRunOperation" "An error occurred (").
Qed.

(** ** Proof automation *)

Ltac run_action :=
  unfold start, stop, bind, try_except_ClientError, invoke, print, ret;
  cbn [fst snd calls stdout].

Ltac tidy_world :=
  repeat first
    [ rewrite issued_app2 | rewrite issued_app
    | rewrite printed_app | rewrite printed_same ].

Ltac split_outcome o :=
  let e := fresh "e" in
  destruct o as [[e| | |?]|?];
  cbn [fst snd calls stdout negb test_report real_report provider_outcome];
  try destruct (contains "DryRunOperation" (py_str e));
  cbn [fst snd calls stdout negb];
  try discriminate.

(** ** The action runner: [start] and [stop] *)

Section ActionRunner.
Variable self : EC2Manager.
Variable w : world.

(** In test mode [start] issues the dry run and nothing else, prints the
    report on it, and lets through only what is not a provider error. *)
Lemma start_in_test_mode :
  test (settings self) = true ->
  let id := instance_id (settings self) in
  issued w (fst (start self w)) = [start_instances [id] true] /\
  printed w (fst (start self w)) =
    test_report "start" id (ec2 self (calls w) (start_instances [id] true)) /\
  (provider_outcome (ec2 self (calls w) (start_instances [id] true)) = true ->
   snd (start self w) = inr tt).
Proof.
  intros Ht id. subst id. run_action. rewrite Ht.
  split_outcome (ec2 self (calls w)
                   (start_instances [instance_id (settings self)] true));
    tidy_world; repeat split; easy.
Qed.

Lemma stop_in_test_mode :
  test (settings self) = true ->
  let id := instance_id (settings self) in
  issued w (fst (stop self w)) = [stop_instances [id] true] /\
  printed w (fst (stop self w)) =
    test_report "stop" id (ec2 self (calls w) (stop_instances [id] true)) /\
  (provider_outcome (ec2 self (calls w) (stop_instances [id] true)) = true ->
   snd (stop self w) = inr tt).
Proof.
  intros Ht id. subst id. run_action. rewrite Ht.
  split_outcome (ec2 self (calls w)
                   (stop_instances [instance_id (settings self)] true));
    tidy_world; repeat split; easy.
Qed.

(** Outside test mode, once the dry run returned or failed with a
    provider error, [start] issues the real call and prints the report
    on that call alone. *)
Lemma start_outside_test_mode :
  test (settings self) = false ->
  let id := instance_id (settings self) in
  provider_outcome (ec2 self (calls w) (start_instances [id] true)) = true ->
  issued w (fst (start self w)) =
    [start_instances [id] true; start_instances [id] false] /\
  printed w (fst (start self w)) =
    real_report "staring" id
      (ec2 self (calls w ++ [start_instances [id] true])%list
         (start_instances [id] false)) /\
  (provider_outcome
     (ec2 self (calls w ++ [start_instances [id] true])%list
        (start_instances [id] false)) = true ->
   snd (start self w) = inr tt).
Proof.
  intros Ht id. subst id. run_action. rewrite Ht.
  split_outcome (ec2 self (calls w)
                   (start_instances [instance_id (settings self)] true));
    intros _;
    split_outcome
      (ec2 self
         (calls w
            ++ [start_instances [instance_id (settings self)] true])%list
         (start_instances [instance_id (settings self)] false));
    tidy_world; repeat split; easy.
Qed.

Lemma stop_outside_test_mode :
  test (settings self) = false ->
  let id := instance_id (settings self) in
  provider_outcome (ec2 self (calls w) (stop_instances [id] true)) = true ->
  issued w (fst (stop self w)) =
    [stop_instances [id] true; stop_instances [id] false] /\
  printed w (fst (stop self w)) =
    real_report "stopping" id
      (ec2 self (calls w ++ [stop_instances [id] true])%list
         (stop_instances [id] false)) /\
  (provider_outcome
     (ec2 self (calls w ++ [stop_instances [id] true])%list
        (stop_instances [id] false)) = true ->
   snd (stop self w) = inr tt).
Proof.
  intros Ht id. subst id. run_action. rewrite Ht.
  split_outcome (ec2 self (calls w)
                   (stop_instances [instance_id (settings self)] true));
    intros _;
    split_outcome
      (ec2 self
         (calls w
            ++ [stop_instances [instance_id (settings self)] true])%list
         (stop_instances [instance_id (settings self)] false));
    tidy_world; repeat split; easy.
Qed.
End ActionRunner.

(** C1. In test mode [start] and [stop] issue the dry run and no other
    call, so no state-changing call; and when the dry run fails with the
    code [DryRunOperation], the success line is all that is printed. *)
Theorem test_mode_issues_dry_run_only (self : EC2Manager) (w : world) :
  test (settings self) = true ->
  let id := instance_id (settings self) in
  (issued w (fst (start self w)) = [start_instances [id] true] /\
   issued w (fst (stop self w)) = [stop_instances [id] true]) /\
  (filter state_changing (issued w (fst (start self w))) = [] /\
   filter state_changing (issued w (fst (stop self w))) = []) /\
  (forall e,
     ec2 self (calls w) (start_instances [id] true) = inl (ClientError e) ->
     error_code e = "DryRunOperation" ->
     printed w (fst (start self w)) =
       ["Test successful, able to start " ++ py_str id ++ "."]) /\
  (forall e,
     ec2 self (calls w) (stop_instances [id] true) = inl (ClientError e) ->
     error_code e = "DryRunOperation" ->
     printed w (fst (stop self w)) =
       ["Test successful, able to stop " ++ py_str id ++ "."]).
Proof.
  intros Ht id.
  destruct (start_in_test_mode self w Ht) as (Hi & Hp & _).
  destruct (stop_in_test_mode self w Ht) as (Hi' & Hp' & _).
  fold id in Hi, Hp, Hi', Hp'.
  repeat split; auto.
  - rewrite Hi. reflexivity.
  - rewrite Hi'. reflexivity.
  - intros e He Hc. rewrite Hp, He. cbn [test_report].
    rewrite (dry_run_code_in_text e Hc). reflexivity.
  - intros e He Hc. rewrite Hp', He. cbn [test_report].
    rewrite (dry_run_code_in_text e Hc). reflexivity.
Qed.

Lemma test_mode_issues_dry_run_only_witness :
  let m :=
    mkEC2Manager (mkSettings (Some "i-123") true false false)
      permissive_client in
  (issued w0 (fst (start m w0)) = [start_instances [Some "i-123"] true] /\
   printed w0 (fst (start m w0)) = ["Test successful, able to start i-123."])
  /\
  (issued w0 (fst (stop m w0)) = [stop_instances [Some "i-123"] true] /\
   printed w0 (fst (stop m w0)) = ["Test successful, able to stop i-123."]).
Proof.
  intros m.
  destruct (test_mode_issues_dry_run_only m w0 eq_refl)
    as ((Hi & Hi') & _ & Hp & Hp').
  split; split.
  - exact Hi.
  - exact (Hp _ eq_refl eq_refl).
  - exact Hi'.
  - exact (Hp' _ eq_refl eq_refl).
Defined.

(** C4, as the code has it.  Outside test mode, when the dry run
    returned or failed with a provider error, whatever its code, [start]
    and [stop] issue the real call once, after the dry run, and print
    the report on the real call only. *)
Theorem real_call_once_outside_test_mode (self : EC2Manager) (w : world) :
  test (settings self) = false ->
  let id := instance_id (settings self) in
  (provider_outcome (ec2 self (calls w) (start_instances [id] true)) = true ->
   issued w (fst (start self w)) =
     [start_instances [id] true; start_instances [id] false] /\
   length (filter state_changing (issued w (fst (start self w)))) = 1 /\
   printed w (fst (start self w)) =
     real_report "staring" id
       (ec2 self (calls w ++ [start_instances [id] true])%list
          (start_instances [id] false))) /\
  (provider_outcome (ec2 self (calls w) (stop_instances [id] true)) = true ->
   issued w (fst (stop self w)) =
     [stop_instances [id] true; stop_instances [id] false] /\
   length (filter state_changing (issued w (fst (stop self w)))) = 1 /\
   printed w (fst (stop self w)) =
     real_report "stopping" id
       (ec2 self (calls w ++ [stop_instances [id] true])%list
          (stop_instances [id] false))).
Proof.
  intros Ht id. split; intros Ho.
  - destruct (start_outside_test_mode self w Ht Ho) as (Hi & Hp & _).
    rewrite Hi. auto.
  - destruct (stop_outside_test_mode self w Ht Ho) as (Hi & Hp & _).
    rewrite Hi. auto.
Qed.

Lemma real_call_once_outside_test_mode_witness :
  let m :=
    mkEC2Manager (mkSettings (Some "i-123") false false false)
      silent_refusal_client in
  (issued w0 (fst (start m w0)) =
     [start_instances [Some "i-123"] true;
      start_instances [Some "i-123"] false] /\
   printed w0 (fst (start m w0)) =
     ["Command successful, i-123 is staring..."]) /\
  (issued w0 (fst (stop m w0)) =
     [stop_instances [Some "i-123"] true;
      stop_instances [Some "i-123"] false] /\
   printed w0 (fst (stop m w0)) =
     ["Command successful, i-123 is stopping..."]).
Proof.
  intros m.
  destruct (real_call_once_outside_test_mode m w0 eq_refl) as (Hs & Hp).
  destruct (Hs eq_refl) as (H1 & _ & H2).
  destruct (Hp eq_refl) as (H3 & _ & H4).
  repeat split; assumption.
Defined.

(** C4, as stated, fails: outside test mode a dry run that raises
    something else than a [ClientError] ends [start] and [stop] before
    the real call, which is then issued zero times. *)
Lemma real_call_skipped_counterexample :
  let m :=
    mkEC2Manager (mkSettings (Some "i-123") false false false)
      unreachable_client in
  test (settings m) = false /\
  (start m w0 =
     (mkWorld [start_instances [Some "i-123"] true] [],
      inl (OtherException "EndpointConnectionError")) /\
   length (filter state_changing (issued w0 (fst (start m w0)))) = 0) /\
  (stop m w0 =
     (mkWorld [stop_instances [Some "i-123"] true] [],
      inl (OtherException "EndpointConnectionError")) /\
   length (filter state_changing (issued w0 (fst (stop m w0)))) = 0).
Proof. repeat split; reflexivity. Qed.

(** C5, as the code has it.  When the client only returns or fails with
    provider errors, [start] and [stop] end without an exception; the
    error of the real call is printed after [ERROR:], and the error of
    the dry run is reported in test mode only. *)
Theorem start_stop_catch_provider_errors (self : EC2Manager) (w : world) :
  (forall h c, provider_outcome (ec2 self h c) = true) ->
  let id := instance_id (settings self) in
  (snd (start self w) = inr tt /\ snd (stop self w) = inr tt) /\
  printed w (fst (start self w)) =
    (if test (settings self) then
       test_report "start" id
         (ec2 self (calls w) (start_instances [id] true))
     else
       real_report "staring" id
         (ec2 self (calls w ++ [start_instances [id] true])%list
            (start_instances [id] false))) /\
  printed w (fst (stop self w)) =
    (if test (settings self) then
       test_report "stop" id
         (ec2 self (calls w) (stop_instances [id] true))
     else
       real_report "stopping" id
         (ec2 self (calls w ++ [stop_instances [id] true])%list
            (stop_instances [id] false))).
Proof.
  intros Hc id. destruct (test (settings self)) eqn:Ht.
  - destruct (start_in_test_mode self w Ht) as (_ & Hp & Hr).
    destruct (stop_in_test_mode self w Ht) as (_ & Hp' & Hr').
    repeat split; auto.
  - destruct (start_outside_test_mode self w Ht (Hc _ _)) as (_ & Hp & Hr).
    destruct (stop_outside_test_mode self w Ht (Hc _ _)) as (_ & Hp' & Hr').
    repeat split; auto.
Qed.

Lemma start_stop_catch_provider_errors_witness :
  let m :=
    mkEC2Manager (mkSettings (Some "i-123") false false false)
      refusing_client in
  (snd (start m w0) = inr tt /\ snd (stop m w0) = inr tt) /\
  printed w0 (fst (start m w0)) =
    ["ERROR: " ++ refusal_text "StartInstances"].
Proof.
  intros m.
  destruct (start_stop_catch_provider_errors m w0 (fun _ _ => eq_refl))
    as (Hr & Hp & _).
  split; [exact Hr | exact Hp].
Defined.

(** C5, as stated, fails twice: outside test mode the error of the dry
    run is dropped without a word, and in list mode the error of
    [describe_instances] ends the script. *)
Lemma provider_error_not_reported_counterexample :
  (let m :=
     mkEC2Manager (mkSettings (Some "i-123") false false false)
       silent_refusal_client in
   (exists e,
      ec2 m [] (start_instances [Some "i-123"] true)
        = inl (ClientError e)) /\
   printed w0 (fst (start m w0)) =
     ["Command successful, i-123 is staring..."]) /\
  (exists e,
     snd (@main sample_str (mkArgs true None None false false false)
            refusing_client w0) = inl (ClientError e)).
Proof.
  split.
  - split; [eexists|]; reflexivity.
  - eexists. reflexivity.
Qed.

(** C6.  After a real start that succeeded the confirmation names the
    instance, but its word is [staring]: the text holds no [starting]. *)
Theorem start_confirmation_reads_staring :
  let m :=
    mkEC2Manager (mkSettings (Some "i-123") false false false)
      permissive_client in
  snd (start m w0) = inr tt /\
  printed w0 (fst (start m w0)) =
    ["Command successful, i-123 is staring..."] /\
  existsb (contains "starting") (printed w0 (fst (start m w0))) = false /\
  printed w0 (fst (stop m w0)) =
    ["Command successful, i-123 is stopping..."].
Proof. repeat split; reflexivity. Qed.

(** C8, as the code has it.  In test mode a dry run that failed with a
    provider error is classified by the text of the error: the success
    line when it holds [DryRunOperation], which it does when that is the
    code of the error, and otherwise the failure line with the error. *)
Theorem dry_run_failure_classified_by_text
    (self : EC2Manager) (w : world) (e : client_error) :
  test (settings self) = true ->
  let id := instance_id (settings self) in
  (ec2 self (calls w) (start_instances [id] true) = inl (ClientError e) ->
   printed w (fst (start self w)) =
     [if contains "DryRunOperation" (py_str e) then
        "Test successful, able to start " ++ py_str id ++ "."
      else
        "Test failed, can't start " ++ py_str id ++ "." ++ nl ++ py_str e])
  /\
  (ec2 self (calls w) (stop_instances [id] true) = inl (ClientError e) ->
   printed w (fst (stop self w)) =
     [if contains "DryRunOperation" (py_str e) then
        "Test successful, able to stop " ++ py_str id ++ "."
      else
        "Test failed, can't stop " ++ py_str id ++ "." ++ nl ++ py_str e])
  /\
  (error_code e = "DryRunOperation" ->
   contains "DryRunOperation" (py_str e) = true).
Proof.
  intros Ht id.
  destruct (start_in_test_mode self w Ht) as (_ & Hp & _).
  destruct (stop_in_test_mode self w Ht) as (_ & Hp' & _).
  fold id in Hp, Hp'.
  repeat split.
  - intros He. rewrite Hp, He. cbn [test_report].
    destruct (contains "DryRunOperation" (py_str e)); reflexivity.
  - intros He. rewrite Hp', He. cbn [test_report].
    destruct (contains "DryRunOperation" (py_str e)); reflexivity.
  - apply dry_run_code_in_text.
Qed.

Lemma dry_run_failure_classified_by_text_witness :
  let m :=
    mkEC2Manager (mkSettings (Some "i-123") true false false)
      refusing_client in
  printed w0 (fst (start m w0)) =
    ["Test failed, can't start i-123." ++ nl ++
     refusal_text "StartInstances"]
  /\
  printed w0 (fst (stop m w0)) =
    ["Test failed, can't stop i-123." ++ nl ++
     refusal_text "StopInstances"].
Proof.
  intros m. split.
  - exact (proj1 (dry_run_failure_classified_by_text m w0 _ eq_refl)
             eq_refl).
  - exact (proj1 (proj2 (dry_run_failure_classified_by_text m w0 _ eq_refl))
             eq_refl).
Defined.

(** C8, as stated, fails: an error of another code whose message quotes
    [DryRunOperation] is taken for the success of the check. *)
Lemma dry_run_code_counterexample :
  let m :=
    mkEC2Manager (mkSettings (Some "DryRunOperation") true false false)
      quoting_client in
  exists e,
    ec2 m [] (start_instances [Some "DryRunOperation"] true)
      = inl (ClientError e) /\
    error_code e = "InvalidInstanceID.Malformed" /\
    error_code e <> "DryRunOperation" /\
    printed w0 (fst (start m w0)) =
      ["Test successful, able to start DryRunOperation."].
Proof.
  eexists. repeat split; try reflexivity. discriminate.
Qed.

(** ** The mapper: [instance_from_response] *)

(** The record of an entry that has its placement and its state. *)
Lemma instance_record_dict (d p s : list (string * pyval)) :
  dict_get d "Placement" = VDict p ->
  dict_get d "State" = VDict s ->
  instance_record (VDict d) =
    inr (mkEC2Instance
           (dict_get d "ImageId") (dict_get d "InstanceId")
           (dict_get d "InstanceType") (dict_get d "LaunchTime")
           (dict_get p "AvailabilityZone") (dict_get d "PrivateDnsName")
           (dict_get d "PrivateIpAddress")
           (or_NONE (dict_get d "PublicIpAddress"))
           (or_NONE (dict_get d "PublicDnsName"))
           (dict_get s "Name") (dict_get d "SubnetId") (dict_get d "VpcId")
           (dict_get d "Tags")).
Proof.
  intros Hp Hs. unfold instance_record. cbn [py_get ebind].
  rewrite Hp, Hs. reflexivity.
Qed.

Lemma valid_instance_record (instance : pyval) :
  valid_instance instance = true ->
  exists record, instance_record instance = inr record.
Proof.
  destruct instance as [| | | | | |d]; try discriminate. cbn [valid_instance].
  destruct (dict_get d "Placement") as [| | | | | |p] eqn:Hp; try discriminate.
  destruct (dict_get d "State") as [| | | | | |s] eqn:Hs; try discriminate.
  intros _. eexists. apply (instance_record_dict d p s Hp Hs).
Qed.

Lemma inner_loop (l : list pyval) :
  forallb valid_instance l = true ->
  forall acc,
  exists records,
    for_each l
      (fun instance ec2_instances =>
         ec2_instance <~ instance_record instance;;
         inr (ec2_instances ++ [ec2_instance])%list) acc
      = inr (acc ++ records)%list /\
    Forall2 maps_to l records.
Proof.
  induction l as [|x l IH]; cbn [forallb for_each]; intros Hv acc.
  - exists []. rewrite app_nil_r. split; [reflexivity | constructor].
  - apply andb_true_iff in Hv. destruct Hv as [Hx Hl].
    destruct (valid_instance_record x Hx) as [r Hr].
    destruct (IH Hl (acc ++ [r])%list) as (rs & Hrs & HF).
    exists (r :: rs). rewrite Hr. cbn [ebind].
    rewrite Hrs, <- app_assoc. split; [reflexivity | now constructor].
Qed.

Lemma outer_loop (l : list pyval) :
  forallb valid_reservation l = true ->
  forall acc,
  exists records,
    for_each l
      (fun reservation ec2_instances =>
         instances <~ py_get reservation "Instances";;
         instances <~ py_iter instances;;
         for_each instances
           (fun instance ec2_instances =>
              ec2_instance <~ instance_record instance;;
              inr (ec2_instances ++ [ec2_instance])%list)
           ec2_instances) acc
      = inr (acc ++ records)%list /\
    Forall2 maps_to (flat_map reservation_entries l) records.
Proof.
  induction l as [|x l IH]; cbn [forallb for_each flat_map]; intros Hv acc.
  - exists []. rewrite app_nil_r. split; [reflexivity | constructor].
  - apply andb_true_iff in Hv. destruct Hv as [Hx Hl].
    destruct x as [| | | | | |d]; try discriminate.
    cbn [valid_reservation reservation_entries py_get ebind] in *.
    destruct (dict_get d "Instances") as [| | | | |entries|]; try discriminate.
    cbn [py_iter ebind].
    destruct (inner_loop entries Hx acc) as (rs & Hrs & HF).
    destruct (IH Hl (acc ++ rs)%list) as (rs' & Hrs' & HF').
    exists (rs ++ rs')%list. rewrite Hrs. cbn [ebind].
    rewrite Hrs', <- app_assoc. split; [reflexivity |].
    now apply Forall2_app.
Qed.

(** C7. On a valid response the mapper returns one record for each
    instance entry, in the order of the reservations and of the entries
    in them. *)
Theorem mapper_one_record_per_entry (response : pyval) :
  valid_response response = true ->
  exists records,
    instance_from_response response = inr records /\
    length records = length (instance_entries response) /\
    Forall2 maps_to (instance_entries response) records.
Proof.
  destruct response as [| | | | | |d]; try discriminate.
  unfold instance_from_response.
  cbn [valid_response instance_entries py_get ebind].
  destruct (dict_get d "Reservations") as [| | | | |rs|]; try discriminate.
  cbn [py_iter ebind]. intros Hv.
  destruct (outer_loop rs Hv []) as (records & Hr & HF).
  exists records. repeat split; auto.
  symmetry. exact (Forall2_length HF).
Qed.

Lemma mapper_one_record_per_entry_witness :
  exists records,
    instance_from_response sample_response = inr records /\
    length records = 3 /\
    map ec2_instance_id records = [VStr "i-1"; VStr "i-2"; VStr "i-3"].
Proof.
  destruct (mapper_one_record_per_entry sample_response eq_refl)
    as (records & Hr & Hl & _).
  exists records. split; [exact Hr|]. split; [exact Hl|].
  cbv in Hr. injection Hr as <-. reflexivity.
Defined.

Lemma dict_get_absent (d : list (string * pyval)) (k : string) :
  lookup k d = None -> dict_get d k = VNone.
Proof. unfold dict_get. intros ->. reflexivity. Qed.

Lemma dict_get_present (d : list (string * pyval)) (k : string) (v : pyval) :
  lookup k d = Some v -> dict_get d k = v.
Proof. unfold dict_get. intros ->. reflexivity. Qed.

(** C3, as the code has it.  The public DNS name and the public IP
    address of the record are the value of the entry when it is there and
    true, and [NONE] when it is absent or false (empty, [None]). *)
Theorem public_fields_default_when_false (d p s : list (string * pyval)) :
  dict_get d "Placement" = VDict p ->
  dict_get d "State" = VDict s ->
  exists record,
    instance_record (VDict d) = inr record /\
    public_dns_name record = or_NONE (dict_get d "PublicDnsName") /\
    public_ip_address record = or_NONE (dict_get d "PublicIpAddress") /\
    (forall k, lookup k d = None -> or_NONE (dict_get d k) = VStr "NONE") /\
    (forall k v, lookup k d = Some v -> truthy v = true ->
                 or_NONE (dict_get d k) = v) /\
    (forall k v, lookup k d = Some v -> truthy v = false ->
                 or_NONE (dict_get d k) = VStr "NONE").
Proof.
  intros Hp Hs. eexists. split; [apply (instance_record_dict d p s Hp Hs)|].
  cbn [public_dns_name public_ip_address]. repeat split.
  - intros k Hk. rewrite (dict_get_absent d k Hk). reflexivity.
  - intros k v Hk Hv. rewrite (dict_get_present d k v Hk).
    unfold or_NONE. rewrite Hv. reflexivity.
  - intros k v Hk Hv. rewrite (dict_get_present d k v Hk).
    unfold or_NONE. rewrite Hv. reflexivity.
Qed.

Lemma public_fields_default_when_false_witness :
  exists record,
    instance_record (VDict stopped_fields) = inr record /\
    public_dns_name record = VStr "NONE" /\
    public_ip_address record = VStr "203.0.113.9".
Proof.
  destruct (public_fields_default_when_false stopped_fields
              [("AvailabilityZone", VStr "us-east-1a")]
              [("Code", VInt 80); ("Name", VStr "stopped")]
              eq_refl eq_refl)
    as (record & Hr & Hdns & Hip & _).
  exists record. split; [exact Hr|]. split; [exact Hdns | exact Hip].
Defined.

(** C3, as stated, fails: a public DNS name that is there and empty
    becomes [NONE] instead of passing through. *)
Lemma public_dns_present_counterexample :
  lookup "PublicDnsName" stopped_fields = Some (VStr "") /\
  exists record,
    instance_record (VDict stopped_fields) = inr record /\
    public_dns_name record = VStr "NONE" /\
    public_dns_name record <> VStr "".
Proof.
  split; [reflexivity|]. eexists. split; [reflexivity|].
  split; [reflexivity | discriminate].
Qed.

(** C9, as the code has it.  On an entry that has its placement and its
    state the mapper returns a record whose other fields are what [get]
    gives, which is [None] for an absent field; the availability zone and
    the state name are read in the placement and in the state. *)
Theorem other_fields_pass_through (d p s : list (string * pyval)) :
  dict_get d "Placement" = VDict p ->
  dict_get d "State" = VDict s ->
  exists record,
    instance_record (VDict d) = inr record /\
    (image_id record = dict_get d "ImageId" /\
     ec2_instance_id record = dict_get d "InstanceId" /\
     instance_type record = dict_get d "InstanceType" /\
     launch_time record = dict_get d "LaunchTime" /\
     availability_zone record = dict_get p "AvailabilityZone" /\
     private_dns_name record = dict_get d "PrivateDnsName" /\
     private_ip_address record = dict_get d "PrivateIpAddress" /\
     state record = dict_get s "Name" /\
     subnet_id record = dict_get d "SubnetId" /\
     vpc_id record = dict_get d "VpcId" /\
     tags record = dict_get d "Tags") /\
    (forall fields k, lookup k fields = None -> dict_get fields k = VNone) /\
    (forall fields k v, lookup k fields = Some v -> dict_get fields k = v).
Proof.
  intros Hp Hs. eexists. split; [apply (instance_record_dict d p s Hp Hs)|].
  split; [repeat split|].
  split; [apply dict_get_absent | apply dict_get_present].
Qed.

Lemma other_fields_pass_through_witness :
  exists record,
    instance_record (sample_entry "i-1" []) = inr record /\
    ec2_instance_id record = VStr "i-1" /\
    availability_zone record = VStr "us-east-1a" /\
    state record = VStr "stopped" /\
    launch_time record = VNone /\
    tags record = VNone.
Proof.
  destruct (other_fields_pass_through (sample_fields "i-1" [])
              [("AvailabilityZone", VStr "us-east-1a")]
              [("Code", VInt 80); ("Name", VStr "stopped")]
              eq_refl eq_refl)
    as (record & Hr & (_ & Hid & _ & Hl & Haz & _ & _ & Hst & _ & _ & Ht) & _).
  exists record. split; [exact Hr|]. repeat split; assumption.
Defined.

(** C9, as stated, fails: on an entry without its placement the mapper
    raises, and so does the mapping of a response that holds it. *)
Lemma absent_placement_counterexample :
  lookup "Placement" unplaced_fields = None /\
  instance_record (VDict unplaced_fields) = inl AttributeError /\
  instance_from_response
    (VDict [("Reservations",
             VList [VDict [("Instances", VList [VDict unplaced_fields])]])])
    = inl AttributeError.
Proof. repeat split; reflexivity. Qed.

(** ** The summary printer and the list mode *)

Section SummaryFacts.
Context {pyval_PyStr : PyStr pyval}.

(** The printer leaves the client alone, returns, and prints the lines
    of the tiers that the settings show. *)
Lemma print_instance_summary_run (self : EC2Manager)
    (instance : EC2Instance) (w : world) :
  print_instance_summary self instance w =
    (mkWorld (calls w)
       (stdout w ++ summary_text (settings self) instance), inr tt).
Proof.
  unfold print_instance_summary, summary_text, summary_lines, shown,
    not_quiet, verbose_output, bind, print, ret.
  destruct (quiet (settings self)), (verbose (settings self));
    cbn [calls stdout filter map fst snd negb];
    repeat rewrite <- app_assoc; reflexivity.
Qed.

Lemma for_summaries_run (self : EC2Manager) (records : list EC2Instance) :
  forall w,
    for_ records (fun i => print_instance_summary self i) w =
      (mkWorld (calls w)
         (stdout w ++ flat_map (summary_text (settings self)) records),
       inr tt).
Proof.
  induction records as [|r records IH]; intros w; cbn [for_ flat_map].
  - unfold ret. rewrite app_nil_r. destruct w; reflexivity.
  - unfold bind. rewrite print_instance_summary_run, IH.
    cbn [calls stdout]. rewrite <- app_assoc. reflexivity.
Qed.

(** C2, as the code has it.  The summary is made of the lines whose
    tier the settings show: the instance id and the closing empty line
    always; the divider, the type, the private and the public IP and
    the state unless [quiet]; the AMI, the launch time, the zone, the
    private and the public DNS name, the subnet, the VPC and the tags
    if [verbose], whatever [quiet] is. *)
Theorem summary_prints_its_tiers (self : EC2Manager)
    (instance : EC2Instance) (w : world) :
  printed w (fst (print_instance_summary self instance w)) =
    map snd
      (filter (fun l => shown (settings self) (fst l))
         (summary_lines instance)) /\
  map fst (summary_lines instance) =
    [ Always; UnlessQuiet; IfVerbose; UnlessQuiet; IfVerbose; IfVerbose;
      IfVerbose; IfVerbose; UnlessQuiet; UnlessQuiet; IfVerbose; IfVerbose;
      UnlessQuiet; IfVerbose; Always ] /\
  (forall t, shown (settings self) t =
             match t with
             | Always => true
             | UnlessQuiet => negb (quiet (settings self))
             | IfVerbose => verbose (settings self)
             end).
Proof.
  rewrite print_instance_summary_run. cbn [fst]. rewrite printed_app.
  repeat split.
Qed.

(** C10. In list mode the output is the header, printed unless [quiet]
    and before anything else, followed by the summaries of the records
    and nothing more; on the console the header is its line and an
    empty line. *)
Theorem list_mode_header (args : Args) (boto : client) (w : world) :
  arg_list args = true ->
  printed w (fst (main args boto w)) =
    ((if arg_quiet args then [] else [list_header]) ++
     match boto (calls w) describe_instances with
     | inr response =>
         match instance_from_response response with
         | inr records =>
             flat_map
               (summary_text
                  (mkSettings (Some "") (arg_test args) (arg_verbose args)
                     (arg_quiet args)))
               records
         | inl _ => []
         end
     | inl _ => []
     end)%list /\
  console [list_header] = "Instances found in your AWS account:" ++ nl ++ nl.
Proof.
  intros Hl. split; [|reflexivity].
  unfold main. rewrite Hl. cbn [negb].
  unfold bind, not_quiet, list_instances, bind, invoke, lift, ret, print.
  cbn [settings quiet ec2].
  destruct (arg_quiet args); cbn [calls stdout];
    destruct (boto (calls w) describe_instances) as [x|response];
    try destruct (instance_from_response response) as [x|records];
    try rewrite for_summaries_run; cbn [fst calls stdout settings app];
    repeat rewrite <- app_assoc;
    try rewrite printed_app; try rewrite printed_same; try reflexivity.
Qed.
End SummaryFacts.

Lemma list_mode_header_witness :
  printed w0
    (fst (@main sample_str (mkArgs true None None false false false)
            permissive_client w0)) = [list_header] /\
  printed w0
    (fst (@main sample_str (mkArgs true None None false false true)
            permissive_client w0)) = [].
Proof.
  split.
  - exact (proj1 (@list_mode_header sample_str
                    (mkArgs true None None false false false)
                    permissive_client w0 eq_refl)).
  - exact (proj1 (@list_mode_header sample_str
                    (mkArgs true None None false false true)
                    permissive_client w0 eq_refl)).
Defined.

(** C2, as stated, fails: under [quiet] the divider is not printed. *)
Lemma divider_under_quiet_counterexample :
  let m :=
    mkEC2Manager (mkSettings (Some "") false false true) permissive_client in
  printed w0 (fst (@print_instance_summary sample_str m sample_record w0)) =
    ["i-123"; ""] /\
  ~ In divider
      (printed w0
         (fst (@print_instance_summary sample_str m sample_record w0))).
Proof.
  split; [reflexivity|].
  intros [H|[H|[]]]; discriminate.
Qed.

(** ** More on the action runner *)

Lemma issued_same (w : world) (out : list string) :
  issued w (mkWorld (calls w) out) = [].
Proof. unfold issued; simpl. apply skipn_all. Qed.

(** The calls of [start]: the dry run, then at most the real call; and
    at most one text is printed. *)
Lemma start_calls_shape (self : EC2Manager) (w : world) :
  let id := instance_id (settings self) in
  (issued w (fst (start self w)) = [start_instances [id] true] \/
   issued w (fst (start self w)) =
     [start_instances [id] true; start_instances [id] false]) /\
  length (printed w (fst (start self w))) <= 1.
Proof.
  intros id. subst id. run_action.
  destruct (test (settings self));
    split_outcome (ec2 self (calls w)
                     (start_instances [instance_id (settings self)] true));
    try split_outcome
      (ec2 self
         (calls w
            ++ [start_instances [instance_id (settings self)] true])%list
         (start_instances [instance_id (settings self)] false));
    tidy_world; cbn [length]; auto.
Qed.

Lemma stop_calls_shape (self : EC2Manager) (w : world) :
  let id := instance_id (settings self) in
  (issued w (fst (stop self w)) = [stop_instances [id] true] \/
   issued w (fst (stop self w)) =
     [stop_instances [id] true; stop_instances [id] false]) /\
  length (printed w (fst (stop self w))) <= 1.
Proof.
  intros id. subst id. run_action.
  destruct (test (settings self));
    split_outcome (ec2 self (calls w)
                     (stop_instances [instance_id (settings self)] true));
    try split_outcome
      (ec2 self
         (calls w
            ++ [stop_instances [instance_id (settings self)] true])%list
         (stop_instances [instance_id (settings self)] false));
    tidy_world; cbn [length]; auto.
Qed.

(** X1. An exception of the dry run that is not a [ClientError] goes
    through [start] and [stop], in test mode or not: the run ends there,
    with the dry run as its only call and nothing printed. *)
Theorem other_exception_of_dry_run_propagates
    (self : EC2Manager) (w : world) (x : exn) :
  client_error_exn x = false ->
  let id := instance_id (settings self) in
  (ec2 self (calls w) (start_instances [id] true) = inl x ->
   start self w =
     (mkWorld (calls w ++ [start_instances [id] true]) (stdout w), inl x)) /\
  (ec2 self (calls w) (stop_instances [id] true) = inl x ->
   stop self w =
     (mkWorld (calls w ++ [stop_instances [id] true]) (stdout w), inl x)).
Proof.
  intros Hx id. subst id.
  split; intros He; run_action; rewrite He;
    destruct x; try discriminate; reflexivity.
Qed.

Lemma other_exception_of_dry_run_propagates_witness :
  let m :=
    mkEC2Manager (mkSettings (Some "i-123") false false false)
      unreachable_client in
  start m w0 =
    (mkWorld [start_instances [Some "i-123"] true] [],
     inl (OtherException "EndpointConnectionError")) /\
  stop m w0 =
    (mkWorld [stop_instances [Some "i-123"] true] [],
     inl (OtherException "EndpointConnectionError")).
Proof.
  intros m.
  destruct (other_exception_of_dry_run_propagates m w0
              (OtherException "EndpointConnectionError") eq_refl)
    as (Hs & Hp).
  split; [exact (Hs eq_refl) | exact (Hp eq_refl)].
Defined.

(** X2. Outside test mode, an exception of the real call that is not a
    [ClientError] goes through [start] and [stop]: both calls were
    issued and nothing is printed, neither confirmation nor error. *)
Theorem other_exception_of_real_call_propagates
    (self : EC2Manager) (w : world) (x : exn) :
  test (settings self) = false ->
  client_error_exn x = false ->
  let id := instance_id (settings self) in
  (provider_outcome (ec2 self (calls w) (start_instances [id] true)) = true ->
   ec2 self (calls w ++ [start_instances [id] true])%list
     (start_instances [id] false) = inl x ->
   start self w =
     (mkWorld
        ((calls w ++ [start_instances [id] true])
           ++ [start_instances [id] false]) (stdout w), inl x)) /\
  (provider_outcome (ec2 self (calls w) (stop_instances [id] true)) = true ->
   ec2 self (calls w ++ [stop_instances [id] true])%list
     (stop_instances [id] false) = inl x ->
   stop self w =
     (mkWorld
        ((calls w ++ [stop_instances [id] true])
           ++ [stop_instances [id] false]) (stdout w), inl x)).
Proof.
  intros Ht Hx id. subst id.
  split; run_action; rewrite Ht.
  - split_outcome (ec2 self (calls w)
                     (start_instances [instance_id (settings self)] true));
      intros _ He; rewrite He; destruct x; try discriminate; reflexivity.
  - split_outcome (ec2 self (calls w)
                     (stop_instances [instance_id (settings self)] true));
      intros _ He; rewrite He; destruct x; try discriminate; reflexivity.
Qed.

Lemma other_exception_of_real_call_propagates_witness :
  let m :=
    mkEC2Manager (mkSettings (Some "i-123") false false false)
      dropping_client in
  start m w0 =
    (mkWorld
       [start_instances [Some "i-123"] true;
        start_instances [Some "i-123"] false] [],
     inl (OtherException "EndpointConnectionError")) /\
  stop m w0 =
    (mkWorld
       [stop_instances [Some "i-123"] true;
        stop_instances [Some "i-123"] false] [],
     inl (OtherException "EndpointConnectionError")).
Proof.
  intros m.
  destruct (other_exception_of_real_call_propagates m w0
              (OtherException "EndpointConnectionError") eq_refl eq_refl)
    as (Hs & Hp).
  split; [exact (Hs eq_refl eq_refl) | exact (Hp eq_refl eq_refl)].
Defined.

(** X3. Whatever the mode and the answers of the provider, a run of
    [start] issues its dry run first, then at most its real call, both
    on the instance of the settings and never a stop or a describe, and
    prints at most one text; likewise for [stop]. *)
Theorem action_runs_are_bounded (self : EC2Manager) (w : world) :
  let id := instance_id (settings self) in
  ((issued w (fst (start self w)) = [start_instances [id] true] \/
    issued w (fst (start self w)) =
      [start_instances [id] true; start_instances [id] false]) /\
   length (printed w (fst (start self w))) <= 1) /\
  ((issued w (fst (stop self w)) = [stop_instances [id] true] \/
    issued w (fst (stop self w)) =
      [stop_instances [id] true; stop_instances [id] false]) /\
   length (printed w (fst (stop self w))) <= 1).
Proof.
  intros id. split; [apply start_calls_shape | apply stop_calls_shape].
Qed.

(** X4. In test mode a dry run that returns instead of raising leaves
    the run without a verdict: [start] and [stop] print nothing and
    return. *)
Theorem test_mode_is_silent_when_dry_run_returns
    (self : EC2Manager) (w : world) (r : pyval) :
  test (settings self) = true ->
  let id := instance_id (settings self) in
  (ec2 self (calls w) (start_instances [id] true) = inr r ->
   start self w =
     (mkWorld (calls w ++ [start_instances [id] true]) (stdout w), inr tt))
  /\
  (ec2 self (calls w) (stop_instances [id] true) = inr r ->
   stop self w =
     (mkWorld (calls w ++ [stop_instances [id] true]) (stdout w), inr tt)).
Proof.
  intros Ht id. subst id.
  split; intros He; run_action; rewrite He, Ht; reflexivity.
Qed.

Lemma test_mode_is_silent_when_dry_run_returns_witness :
  let m :=
    mkEC2Manager (mkSettings (Some "i-123") true false false)
      (fun _ _ => inr (VDict [])) in
  start m w0 = (mkWorld [start_instances [Some "i-123"] true] [], inr tt) /\
  stop m w0 = (mkWorld [stop_instances [Some "i-123"] true] [], inr tt).
Proof.
  intros m.
  destruct (test_mode_is_silent_when_dry_run_returns m w0 (VDict []) eq_refl)
    as (Hs & Hp).
  split; [exact (Hs eq_refl) | exact (Hp eq_refl)].
Defined.

(** ** More on the entry point *)

Section MainFacts.
Context {pyval_PyStr : PyStr pyval}.

(** The whole run of the list mode. *)
Lemma main_list_run (args : Args) (boto : client) (w : world) :
  arg_list args = true ->
  let header := if arg_quiet args then [] else [list_header] in
  let s :=
    mkSettings (Some "") (arg_test args) (arg_verbose args) (arg_quiet args)
  in
  main args boto w =
    match boto (calls w) describe_instances with
    | inl x =>
        (mkWorld (calls w ++ [describe_instances]) (stdout w ++ header),
         inl x)
    | inr response =>
        match instance_from_response response with
        | inl x =>
            (mkWorld (calls w ++ [describe_instances]) (stdout w ++ header),
             inl x)
        | inr records =>
            (mkWorld (calls w ++ [describe_instances])
               (stdout w ++ header ++ flat_map (summary_text s) records),
             inr tt)
        end
    end.
Proof.
  intros Hl header s. subst header s.
  unfold main. rewrite Hl. cbn [negb].
  unfold bind, not_quiet, list_instances, bind, invoke, lift, ret, print.
  cbn [settings quiet ec2].
  destruct (arg_quiet args); cbn [calls stdout];
    destruct (boto (calls w) describe_instances) as [x|response];
    try destruct (instance_from_response response) as [x|records];
    try rewrite for_summaries_run; cbn [fst calls stdout settings app];
    repeat rewrite <- app_assoc; rewrite ?app_nil_r; reflexivity.
Qed.

(** X5. In list mode the script issues one call, [describe_instances],
    whatever the flags; it ends without an exception exactly when that
    call returns a response that the mapper accepts, and otherwise with
    the exception of the call or of the mapper. *)
Theorem list_mode_describes_once (args : Args) (boto : client) (w : world) :
  arg_list args = true ->
  issued w (fst (main args boto w)) = [describe_instances] /\
  snd (main args boto w) =
    match boto (calls w) describe_instances with
    | inl x => inl x
    | inr response =>
        match instance_from_response response with
        | inl x => inl x
        | inr _ => inr tt
        end
    end.
Proof.
  intros Hl. rewrite (main_list_run args boto w Hl).
  destruct (boto (calls w) describe_instances) as [x|response];
    try destruct (instance_from_response response) as [x|records];
    cbn [fst snd]; rewrite issued_app; split; reflexivity.
Qed.

(** The calls of a run outside list mode. *)
Lemma main_action_calls (args : Args) (boto : client) (w : world) :
  arg_list args = false ->
  issued w (fst (main args boto w)) = [dry_run_of args] \/
  issued w (fst (main args boto w)) = [dry_run_of args; real_call_of args].
Proof.
  intros Hl. unfold main, dry_run_of, real_call_of. rewrite Hl. cbn [negb].
  destruct (truthy_opt (arg_start args)).
  - apply (start_calls_shape
             (mkEC2Manager
                (mkSettings (arg_start args) (arg_test args)
                   (arg_verbose args) (arg_quiet args)) boto) w).
  - apply (stop_calls_shape
             (mkEC2Manager
                (mkSettings (arg_stop args) (arg_test args)
                   (arg_verbose args) (arg_quiet args)) boto) w).
Qed.

(** X6. Outside list mode the script starts the instance of [--start]
    when that option is a non-empty string, and otherwise stops the
    instance of [--stop]: an empty [--start] leads to a stop, on [None]
    when [--stop] was not given.  The dry run comes first and at most
    the real call follows. *)
Theorem dispatch_on_start_option (args : Args) (boto : client) (w : world) :
  arg_list args = false ->
  (issued w (fst (main args boto w)) = [dry_run_of args] \/
   issued w (fst (main args boto w)) = [dry_run_of args; real_call_of args])
  /\
  (arg_start args = Some "" \/ arg_start args = None ->
   dry_run_of args = stop_instances [arg_stop args] true /\
   real_call_of args = stop_instances [arg_stop args] false) /\
  (forall id, arg_start args = Some id -> id <> "" ->
   dry_run_of args = start_instances [Some id] true /\
   real_call_of args = start_instances [Some id] false).
Proof.
  intros Hl. split; [apply (main_action_calls args boto w Hl)|].
  unfold dry_run_of, real_call_of. split.
  - intros [H|H]; rewrite H; split; reflexivity.
  - intros id H Hid. rewrite H. cbn [truthy_opt].
    apply String.eqb_neq in Hid. rewrite Hid. split; reflexivity.
Qed.

(** X7. With [--test] the script issues no state-changing call, in any
    mode and whatever the provider answers. *)
Theorem test_flag_never_changes_state
    (args : Args) (boto : client) (w : world) :
  arg_test args = true ->
  filter state_changing (issued w (fst (main args boto w))) = [].
Proof.
  intros Ht. destruct (arg_list args) eqn:Hl.
  - rewrite (main_list_run args boto w Hl).
    destruct (boto (calls w) describe_instances) as [x|response];
      try destruct (instance_from_response response) as [x|records];
      cbn [fst]; rewrite issued_app; reflexivity.
  - unfold main. rewrite Hl. cbn [negb].
    destruct (truthy_opt (arg_start args)).
    + match goal with
      | |- context [start ?m w] =>
          destruct (start_in_test_mode m w Ht) as (Hi & _)
      end.
      rewrite Hi. reflexivity.
    + match goal with
      | |- context [stop ?m w] =>
          destruct (stop_in_test_mode m w Ht) as (Hi & _)
      end.
      rewrite Hi. reflexivity.
Qed.

(** The summary depends on the settings through [quiet] and [verbose]
    only. *)
Lemma summary_text_flags (s s' : Settings) (instance : EC2Instance) :
  quiet s = quiet s' -> verbose s = verbose s' ->
  summary_text s instance = summary_text s' instance.
Proof.
  intros Hq Hv. unfold summary_text, summary_lines, shown.
  rewrite Hq, Hv. reflexivity.
Qed.

(** X8. In list mode [--test] and the values of [--start] and [--stop]
    change nothing: two runs that agree on [--quiet] and [--verbose]
    issue the same call, print the same texts and end alike. *)
Theorem list_mode_ignores_other_options
    (args args' : Args) (boto : client) (w : world) :
  arg_list args = true ->
  arg_list args' = true ->
  arg_quiet args = arg_quiet args' ->
  arg_verbose args = arg_verbose args' ->
  main args boto w = main args' boto w.
Proof.
  intros Hl Hl' Hq Hv.
  rewrite (main_list_run args boto w Hl), (main_list_run args' boto w Hl').
  rewrite Hq.
  destruct (boto (calls w) describe_instances) as [x|response];
    try destruct (instance_from_response response) as [x|records];
    try reflexivity.
  do 3 f_equal. f_equal.
  apply flat_map_ext. intros r.
  apply summary_text_flags; cbn [quiet verbose]; auto.
Qed.
End MainFacts.

Lemma list_mode_describes_once_witness :
  issued w0
    (fst (@main sample_str (mkArgs true None None true true false)
            refusing_client w0)) = [describe_instances] /\
  exists e,
    snd (@main sample_str (mkArgs true None None true true false)
           refusing_client w0) = inl (ClientError e).
Proof.
  destruct (@list_mode_describes_once sample_str
              (mkArgs true None None true true false) refusing_client w0
              eq_refl) as (Hi & Hr).
  split; [exact Hi|]. eexists. exact Hr.
Defined.

Lemma dispatch_on_start_option_witness :
  let args := mkArgs false (Some "") None false false false in
  issued w0 (fst (@main sample_str args permissive_client w0)) =
    [stop_instances [None] true; stop_instances [None] false] /\
  dry_run_of args = stop_instances [None] true /\
  dry_run_of (mkArgs false (Some "i-123") None false false false) =
    start_instances [Some "i-123"] true.
Proof.
  intros args.
  destruct (@dispatch_on_start_option sample_str args permissive_client w0
              eq_refl) as (_ & Hstop & _).
  destruct (@dispatch_on_start_option sample_str
              (mkArgs false (Some "i-123") None false false false)
              permissive_client w0 eq_refl) as (_ & _ & Hstart).
  split; [reflexivity|]. split.
  - exact (proj1 (Hstop (or_introl eq_refl))).
  - refine (proj1 (Hstart "i-123" eq_refl _)). discriminate.
Defined.

Lemma test_flag_never_changes_state_witness :
  filter state_changing
    (issued w0
       (fst (@main sample_str (mkArgs false (Some "i-123") None true false
                                 false) permissive_client w0))) = [] /\
  filter state_changing
    (issued w0
       (fst (@main sample_str (mkArgs false None (Some "i-123") true false
                                 false) refusing_client w0))) = [].
Proof.
  split.
  - exact (@test_flag_never_changes_state sample_str
             (mkArgs false (Some "i-123") None true false false)
             permissive_client w0 eq_refl).
  - exact (@test_flag_never_changes_state sample_str
             (mkArgs false None (Some "i-123") true false false)
             refusing_client w0 eq_refl).
Defined.

Lemma list_mode_ignores_other_options_witness :
  @main sample_str (mkArgs true None None true false false)
    describing_client w0 =
  @main sample_str (mkArgs true (Some "i-1") (Some "i-2") false false false)
    describing_client w0.
Proof.
  exact (@list_mode_ignores_other_options sample_str
           (mkArgs true None None true false false)
           (mkArgs true (Some "i-1") (Some "i-2") false false false)
           describing_client w0 eq_refl eq_refl eq_refl eq_refl).
Defined.

(** ** More on the mapper *)

(** An entry without a dict for its placement or its state has no
    record. *)
Lemma invalid_instance_record (instance : pyval) :
  valid_instance instance = false ->
  instance_record instance = inl AttributeError.
Proof.
  destruct instance as [| | | | | |d]; try reflexivity.
  unfold instance_record. cbn [valid_instance py_get ebind].
  destruct (dict_get d "Placement") as [| | | | | |p]; try reflexivity.
  destruct (dict_get d "State") as [| | | | | |s]; try reflexivity.
  discriminate.
Qed.

(** What a record tells about the entry it was made of. *)
Lemma instance_record_inv (instance : pyval) (record : EC2Instance) :
  instance_record instance = inr record ->
  exists d p s,
    instance = VDict d /\
    dict_get d "Placement" = VDict p /\
    dict_get d "State" = VDict s.
Proof.
  intros H. destruct (valid_instance instance) eqn:Hv.
  - destruct instance as [| | | | | |d]; try discriminate.
    cbn [valid_instance] in Hv.
    destruct (dict_get d "Placement") as [| | | | | |p] eqn:Hp;
      try discriminate.
    destruct (dict_get d "State") as [| | | | | |s] eqn:Hs;
      try discriminate.
    exists d, p, s. auto.
  - rewrite (invalid_instance_record instance Hv) in H. discriminate.
Qed.

(** X9. The mapper makes a record of an entry exactly when the entry is
    a dict whose [Placement] and [State] are dicts; on any other entry
    it raises [AttributeError]. *)
Theorem instance_record_domain (instance : pyval) :
  match instance_record instance with
  | inr _ => valid_instance instance = true
  | inl x => valid_instance instance = false /\ x = AttributeError
  end.
Proof.
  destruct (valid_instance instance) eqn:Hv.
  - destruct (valid_instance_record instance Hv) as [r Hr]. rewrite Hr.
    reflexivity.
  - rewrite (invalid_instance_record instance Hv). split; reflexivity.
Qed.

Lemma truthy_or_NONE (v : pyval) : truthy (or_NONE v) = true.
Proof. unfold or_NONE. destruct (truthy v) eqn:E; [exact E | reflexivity]. Qed.

Lemma record_public_fields (instance : pyval) (record : EC2Instance) :
  instance_record instance = inr record ->
  truthy (public_dns_name record) = true /\
  truthy (public_ip_address record) = true.
Proof.
  intros H. destruct (instance_record_inv instance record H)
    as (d & p & s & -> & Hp & Hs).
  rewrite (instance_record_dict d p s Hp Hs) in H. injection H as <-.
  cbn [public_dns_name public_ip_address]. split; apply truthy_or_NONE.
Qed.

(** The records that the loops add to the list are records of entries. *)
Lemma inner_loop_records (l : list pyval) :
  forall acc result,
    for_each l
      (fun instance ec2_instances =>
         ec2_instance <~ instance_record instance;;
         inr (ec2_instances ++ [ec2_instance])%list) acc
      = inr result ->
    exists records,
      result = (acc ++ records)%list /\
      Forall (fun record => exists entry, maps_to entry record) records.
Proof.
  induction l as [|x l IH]; cbn [for_each]; intros acc result H.
  - injection H as <-. exists []. rewrite app_nil_r. auto.
  - destruct (instance_record x) as [e|r] eqn:Hx; cbn [ebind] in H;
      [discriminate|].
    destruct (IH _ _ H) as (rs & -> & HF).
    exists (r :: rs). rewrite <- app_assoc. split; [reflexivity|].
    constructor; [exists x; exact Hx | exact HF].
Qed.

Lemma outer_loop_records (l : list pyval) :
  forall acc result,
    for_each l
      (fun reservation ec2_instances =>
         instances <~ py_get reservation "Instances";;
         instances <~ py_iter instances;;
         for_each instances
           (fun instance ec2_instances =>
              ec2_instance <~ instance_record instance;;
              inr (ec2_instances ++ [ec2_instance])%list)
           ec2_instances) acc
      = inr result ->
    exists records,
      result = (acc ++ records)%list /\
      Forall (fun record => exists entry, maps_to entry record) records.
Proof.
  induction l as [|x l IH]; cbn [for_each]; intros acc result H.
  - injection H as <-. exists []. rewrite app_nil_r. auto.
  - destruct (py_get x "Instances") as [e|v]; cbn [ebind] in H;
      [discriminate|].
    destruct (py_iter v) as [e|entries]; cbn [ebind] in H; [discriminate|].
    match type of H with
    | (s' <~ ?inner;; _) = _ => destruct inner as [e|mid] eqn:Hin
    end; cbn [ebind] in H; [discriminate|].
    destruct (inner_loop_records _ _ _ Hin) as (rs & -> & HF).
    destruct (IH _ _ H) as (rs' & -> & HF').
    exists (rs ++ rs')%list. rewrite <- app_assoc. split; [reflexivity|].
    apply Forall_app. auto.
Qed.

(** X10. In every record that the mapper returns, the public DNS name
    and the public IP address hold a true value: never [None], never the
    empty string. *)
Theorem records_have_public_fields
    (response : pyval) (records : list EC2Instance) :
  instance_from_response response = inr records ->
  Forall
    (fun record =>
       truthy (public_dns_name record) = true /\
       truthy (public_ip_address record) = true)
    records.
Proof.
  unfold instance_from_response. intros H.
  destruct (py_get response "Reservations") as [e|v]; cbn [ebind] in H;
    [discriminate|].
  destruct (py_iter v) as [e|rs]; cbn [ebind] in H; [discriminate|].
  destruct (outer_loop_records rs [] records H) as (recs & -> & HF).
  cbn [app]. eapply Forall_impl; [|exact HF].
  intros r [entry Hr]. exact (record_public_fields entry r Hr).
Qed.

Lemma records_have_public_fields_witness :
  exists records,
    instance_from_response sample_response = inr records /\
    Forall
      (fun record =>
         truthy (public_dns_name record) = true /\
         truthy (public_ip_address record) = true)
      records.
Proof.
  eexists. split; [reflexivity|].
  apply (records_have_public_fields sample_response). reflexivity.
Defined.

(** An entry without a record stops the inner loop. *)
Lemma inner_loop_fails (l : list pyval) :
  forallb valid_instance l = false ->
  forall acc,
    for_each l
      (fun instance ec2_instances =>
         ec2_instance <~ instance_record instance;;
         inr (ec2_instances ++ [ec2_instance])%list) acc
      = inl AttributeError.
Proof.
  induction l as [|x l IH]; cbn [forallb for_each]; intros Hv acc;
    [discriminate|].
  destruct (valid_instance x) eqn:Hx.
  - destruct (valid_instance_record x Hx) as [r Hr]. rewrite Hr.
    cbn [ebind]. apply IH. exact Hv.
  - rewrite (invalid_instance_record x Hx). reflexivity.
Qed.

Lemma outer_loop_fails (l : list pyval) :
  forallb well_shaped_reservation l = true ->
  forallb valid_instance (flat_map reservation_entries l) = false ->
  forall acc,
    for_each l
      (fun reservation ec2_instances =>
         instances <~ py_get reservation "Instances";;
         instances <~ py_iter instances;;
         for_each instances
           (fun instance ec2_instances =>
              ec2_instance <~ instance_record instance;;
              inr (ec2_instances ++ [ec2_instance])%list)
           ec2_instances) acc
      = inl AttributeError.
Proof.
  induction l as [|x l IH]; cbn [forallb for_each flat_map];
    intros Hs Hv acc; [discriminate|].
  apply andb_true_iff in Hs. destruct Hs as [Hx Hl].
  destruct x as [| | | | | |d]; try discriminate.
  cbn [well_shaped_reservation reservation_entries py_get ebind] in *.
  destruct (dict_get d "Instances") as [| | | | |entries|]; try discriminate.
  cbn [py_iter ebind]. rewrite forallb_app in Hv.
  destruct (forallb valid_instance entries) eqn:He.
  - destruct (inner_loop entries He acc) as (rs & Hrs & _). rewrite Hrs.
    cbn [ebind]. apply IH; auto.
  - rewrite (inner_loop_fails entries He acc). reflexivity.
Qed.

(** X11. One entry without a dict for its placement or its state fails
    the whole mapping: the mapper raises [AttributeError] and returns no
    record, not even those of the entries before it. *)
Theorem one_bad_entry_fails_the_mapping (response entry : pyval) :
  well_shaped response = true ->
  In entry (instance_entries response) ->
  valid_instance entry = false ->
  instance_from_response response = inl AttributeError.
Proof.
  destruct response as [| | | | | |d]; try discriminate.
  unfold instance_from_response.
  cbn [well_shaped instance_entries py_get ebind].
  destruct (dict_get d "Reservations") as [| | | | |rs|]; try discriminate.
  cbn [py_iter ebind]. intros Hs Hin Hv.
  apply outer_loop_fails; [exact Hs|].
  destruct (forallb valid_instance (flat_map reservation_entries rs)) eqn:E;
    [|reflexivity].
  rewrite forallb_forall in E. rewrite (E entry Hin) in Hv. discriminate.
Qed.

Lemma one_bad_entry_fails_the_mapping_witness :
  instance_from_response
    (VDict
       [("Reservations",
         VList
           [VDict [("Instances",
                    VList [sample_entry "i-1" []; VDict unplaced_fields])]])])
    = inl AttributeError.
Proof.
  apply (one_bad_entry_fails_the_mapping _ (VDict unplaced_fields)).
  - reflexivity.
  - simpl. auto.
  - reflexivity.
Defined.

(** A reservation without [Instances] stops the outer loop. *)
Lemma outer_loop_without_instances (before after : list pyval)
    (fields : list (string * pyval)) :
  forallb valid_reservation before = true ->
  lookup "Instances" fields = None ->
  forall acc,
    for_each (before ++ VDict fields :: after)
      (fun reservation ec2_instances =>
         instances <~ py_get reservation "Instances";;
         instances <~ py_iter instances;;
         for_each instances
           (fun instance ec2_instances =>
              ec2_instance <~ instance_record instance;;
              inr (ec2_instances ++ [ec2_instance])%list)
           ec2_instances) acc
      = inl TypeError.
Proof.
  intros Hv Hf. induction before as [|x before IH]; intros acc.
  - cbn [app for_each py_get]. rewrite (dict_get_absent fields _ Hf).
    reflexivity.
  - cbn [forallb] in Hv. apply andb_true_iff in Hv. destruct Hv as [Hx Hb].
    destruct x as [| | | | | |rd]; try discriminate.
    cbn [valid_reservation] in Hx. cbn [app for_each py_get ebind].
    destruct (dict_get rd "Instances") as [| | | | |entries|];
      try discriminate.
    cbn [py_iter ebind].
    destruct (inner_loop entries Hx acc) as (rs & Hrs & _).
    rewrite Hrs. cbn [ebind]. apply IH. exact Hb.
Qed.

(** X12. What the mapper does with a response that lacks a key: without
    [Reservations] it raises [TypeError]; with an empty list of
    reservations it returns no record; and a reservation without
    [Instances] raises [TypeError], even after reservations that were
    mapped. *)
Theorem mapper_on_missing_keys (d : list (string * pyval)) :
  (lookup "Reservations" d = None ->
   instance_from_response (VDict d) = inl TypeError) /\
  (dict_get d "Reservations" = VList [] ->
   instance_from_response (VDict d) = inr []) /\
  (forall before fields after,
     dict_get d "Reservations" = VList (before ++ VDict fields :: after) ->
     forallb valid_reservation before = true ->
     lookup "Instances" fields = None ->
     instance_from_response (VDict d) = inl TypeError).
Proof.
  unfold instance_from_response. cbn [py_get ebind]. repeat split.
  - intros H. rewrite (dict_get_absent d _ H). reflexivity.
  - intros H. rewrite H. reflexivity.
  - intros before fields after H Hv Hf. rewrite H. cbn [py_iter ebind].
    apply outer_loop_without_instances; assumption.
Qed.

Lemma mapper_on_missing_keys_witness :
  instance_from_response (VDict [("ResponseMetadata", VDict [])])
    = inl TypeError /\
  instance_from_response empty_response = inr [] /\
  instance_from_response
    (VDict
       [("Reservations",
         VList
           [VDict [("Instances", VList [sample_entry "i-1" []])];
            VDict [("OwnerId", VStr "123456789012")]])])
    = inl TypeError.
Proof.
  split; [|split].
  - exact (proj1 (mapper_on_missing_keys [("ResponseMetadata", VDict [])])
             eq_refl).
  - exact (proj1 (proj2 (mapper_on_missing_keys [("Reservations", VList [])]))
             eq_refl).
  - exact (proj2 (proj2
             (mapper_on_missing_keys
                [("Reservations",
                  VList
                    [VDict [("Instances", VList [sample_entry "i-1" []])];
                     VDict [("OwnerId", VStr "123456789012")]])]))
             [VDict [("Instances", VList [sample_entry "i-1" []])]]
             [("OwnerId", VStr "123456789012")] [] eq_refl eq_refl eq_refl).
Defined.

(** A loop whose body appends what it makes of each element can start
    from the empty list. *)
Lemma for_each_appending {A B} (g : A -> exn + list B)
    (body : A -> list B -> exn + list B) :
  (forall x acc, body x acc = (r <~ g x;; inr (acc ++ r)%list)) ->
  forall l acc,
    for_each l body acc = (r <~ for_each l body [];; inr (acc ++ r)%list).
Proof.
  intros Hb. induction l as [|x l IH]; intros acc; cbn [for_each ebind].
  - rewrite app_nil_r. reflexivity.
  - rewrite (Hb x acc), (Hb x []).
    destruct (g x) as [e|r]; cbn [ebind app]; [reflexivity|].
    rewrite (IH (acc ++ r)%list), (IH r).
    destruct (for_each l body []) as [e|rs]; cbn [ebind]; [reflexivity|].
    rewrite app_assoc. reflexivity.
Qed.

Lemma for_each_app {A S} (body : A -> S -> exn + S) (l l' : list A) :
  forall s,
    for_each (l ++ l') body s = (s' <~ for_each l body s;; for_each l' body s').
Proof.
  induction l as [|x l IH]; intros s; cbn [app for_each ebind];
    [reflexivity|].
  destruct (body x s) as [e|s']; cbn [ebind]; [reflexivity | apply IH].
Qed.

Lemma inner_loop_appending (l : list pyval) (acc : list EC2Instance) :
  for_each l
    (fun instance ec2_instances =>
       ec2_instance <~ instance_record instance;;
       inr (ec2_instances ++ [ec2_instance])%list) acc
  = (r <~ for_each l
            (fun instance ec2_instances =>
               ec2_instance <~ instance_record instance;;
               inr (ec2_instances ++ [ec2_instance])%list) [];;
     inr (acc ++ r)%list).
Proof.
  apply (for_each_appending
           (fun instance => r <~ instance_record instance;; inr [r])).
  intros x a. destruct (instance_record x); reflexivity.
Qed.

(** X13. Mapping goes with the concatenation of reservations: the
    records of a response whose reservations are those of a first
    response followed by those of a second are the records of the first
    followed by the records of the second, and an exception of either
    is the exception of the whole. *)
Theorem mapper_concatenates (d1 d2 d : list (string * pyval))
    (rs1 rs2 : list pyval) :
  dict_get d1 "Reservations" = VList rs1 ->
  dict_get d2 "Reservations" = VList rs2 ->
  dict_get d "Reservations" = VList (rs1 ++ rs2) ->
  instance_from_response (VDict d) =
    (l1 <~ instance_from_response (VDict d1);;
     l2 <~ instance_from_response (VDict d2);;
     inr (l1 ++ l2)%list).
Proof.
  intros H1 H2 H. unfold instance_from_response. cbn [py_get ebind].
  rewrite H1, H2, H. cbn [py_iter ebind]. rewrite for_each_app.
  match goal with
  | |- (s' <~ ?a;; for_each rs2 ?body s') = _ =>
      destruct a as [e|l1]; cbn [ebind]; [reflexivity|];
      apply (for_each_appending
               (fun reservation =>
                  instances <~ py_get reservation "Instances";;
                  instances <~ py_iter instances;;
                  for_each instances
                    (fun instance ec2_instances =>
                       ec2_instance <~ instance_record instance;;
                       inr (ec2_instances ++ [ec2_instance])%list) [])
               body)
  end.
  intros x acc.
  destruct (py_get x "Instances") as [e|v]; cbn [ebind]; [reflexivity|].
  destruct (py_iter v) as [e|entries]; cbn [ebind]; [reflexivity|].
  apply inner_loop_appending.
Qed.

Lemma mapper_concatenates_witness :
  exists l1 l2,
    instance_from_response sample_response = inr l1 /\
    instance_from_response (VDict [("Reservations", VList more_reservations)])
      = inr l2 /\
    instance_from_response
      (VDict
         [("ResponseMetadata", VDict []);
          ("Reservations",
           VList (sample_reservations ++ more_reservations))])
      = inr (l1 ++ l2)%list.
Proof.
  do 2 eexists. split; [reflexivity|]. split; [reflexivity|].
  exact (mapper_concatenates
           [("Reservations", VList sample_reservations)]
           [("Reservations", VList more_reservations)]
           [("ResponseMetadata", VDict []);
            ("Reservations",
             VList (sample_reservations ++ more_reservations))]
           sample_reservations more_reservations
           eq_refl eq_refl eq_refl).
Defined.

(** ** More on the summary and the listing *)

Section ListingFacts.
Context {pyval_PyStr : PyStr pyval}.

(** X14. Printing a summary issues no call and raises nothing.  The
    summary starts with the instance id and ends with the empty line,
    and holds two texts, five more unless [quiet] and eight more if
    [verbose]. *)
Theorem summary_shape (self : EC2Manager) (instance : EC2Instance)
    (w : world) :
  snd (print_instance_summary self instance w) = inr tt /\
  issued w (fst (print_instance_summary self instance w)) = [] /\
  length (printed w (fst (print_instance_summary self instance w))) =
    2 + (if quiet (settings self) then 0 else 5)
      + (if verbose (settings self) then 8 else 0) /\
  hd_error (printed w (fst (print_instance_summary self instance w))) =
    Some (py_str (ec2_instance_id instance)) /\
  last (printed w (fst (print_instance_summary self instance w))) divider =
    "".
Proof.
  rewrite print_instance_summary_run. cbn [fst snd].
  rewrite issued_same, printed_app.
  unfold summary_text, summary_lines, shown.
  destruct (quiet (settings self)), (verbose (settings self));
    repeat split; reflexivity.
Qed.

(** The quiet summary of the record of an entry. *)
Lemma quiet_summary_of_entry (s : Settings) (entry : pyval)
    (record : EC2Instance) :
  quiet s = true -> verbose s = false ->
  maps_to entry record ->
  summary_text s record = [py_str (entry_id entry); ""].
Proof.
  intros Hq Hv H. unfold maps_to in H.
  destruct (instance_record_inv entry record H)
    as (d & p & st & -> & Hp & Hs).
  rewrite (instance_record_dict d p st Hp Hs) in H. injection H as <-.
  unfold summary_text, summary_lines, shown. rewrite Hq, Hv. reflexivity.
Qed.

Lemma quiet_summaries (s : Settings) (entries : list pyval)
    (records : list EC2Instance) :
  quiet s = true -> verbose s = false ->
  Forall2 maps_to entries records ->
  flat_map (summary_text s) records =
    flat_map (fun entry => [py_str (entry_id entry); ""]) entries.
Proof.
  intros Hq Hv HF.
  induction HF as [|entry record entries records Hm HF IH];
    cbn [flat_map]; [reflexivity|].
  rewrite IH, (quiet_summary_of_entry s entry record Hq Hv Hm). reflexivity.
Qed.

(** X15. The quiet listing: with [--list] and [--quiet] and without
    [--verbose], when [describe_instances] returns a valid response the
    script prints, for each instance entry in the order of the response,
    what the entry holds under [InstanceId] and then an empty line, and
    nothing else, and ends without an exception. *)
Theorem quiet_listing (args : Args) (boto : client) (w : world)
    (response : pyval) :
  arg_list args = true ->
  arg_quiet args = true ->
  arg_verbose args = false ->
  boto (calls w) describe_instances = inr response ->
  valid_response response = true ->
  printed w (fst (main args boto w)) =
    flat_map (fun entry => [py_str (entry_id entry); ""])
      (instance_entries response) /\
  snd (main args boto w) = inr tt.
Proof.
  intros Hl Hq Hv Hd Hr. rewrite (main_list_run args boto w Hl), Hd, Hq.
  destruct response as [| | | | | |d]; try discriminate.
  unfold instance_from_response.
  cbn [valid_response instance_entries py_get ebind] in *.
  destruct (dict_get d "Reservations") as [| | | | |rs|]; try discriminate.
  cbn [py_iter ebind].
  destruct (outer_loop rs Hr []) as (records & Hrec & HF).
  rewrite Hrec. cbn [app fst snd]. rewrite printed_app.
  split; [|reflexivity].
  apply quiet_summaries; auto.
Qed.
End ListingFacts.

Lemma quiet_listing_witness :
  printed w0
    (fst (@main sample_str (mkArgs true None None false false true)
            describing_client w0)) = ["i-1"; ""; "i-2"; ""; "i-3"; ""] /\
  snd (@main sample_str (mkArgs true None None false false true)
         describing_client w0) = inr tt.
Proof.
  exact (@quiet_listing sample_str (mkArgs true None None false false true)
           describing_client w0 sample_response
           eq_refl eq_refl eq_refl eq_refl eq_refl).
Defined.
